(** * The environment resolver of MyAssessmentProject

    A shallow embedding of [lambda_function/lambda_function.py] (the Lambda
    handler that reads the SSM parameter [/platform/account/env] and answers
    with the Helm values for that environment) and of the part of
    [my_assessment_project/my_assessment_project_stack.py] that declares
    that parameter, together with the properties of the handler.

    Python values are an inductive type, exceptions are values of a record,
    and the handler is a computation in a state-and-exception monad over a
    [world]: the behaviour of boto3 and of the parameter store seen from the
    handler, the objects on the heap, what was printed, and the calls made
    to the store. *)

From Stdlib Require Import Ascii String ZArith NArith List Bool Lia.
From stdpp Require Import base gmap strings pretty.

Local Open Scope Z_scope.

(** ** Python values *)

(** The values the handler meets: what a JSON document or a boto3 response
    is made of.  A [str] is held as the string of its UTF-8 bytes, so that
    [==] on two [str] is equality of the two strings.  A [dict] keeps its
    items in insertion order, its keys are [str] and pairwise distinct. *)
#[warnings="-register-all"]
Inductive pyval : Type :=
| PNone
| PBool (b : bool)
| PInt (z : Z)
| PStr (s : string)
| PList (l : list pyval)
| PDict (d : list (string * pyval)).

(** [type(v).__name__] *)
Definition py_type_name (v : pyval) : string :=
  match v with
  | PNone => "NoneType"
  | PBool _ => "bool"
  | PInt _ => "int"
  | PStr _ => "str"
  | PList _ => "list"
  | PDict _ => "dict"
  end.

(** [v == s] for a [str] literal [s]: only a [str] with the same characters
    compares equal to it. *)
Definition py_eq_str (v : pyval) (s : string) : bool :=
  match v with
  | PStr s' => String.eqb s' s
  | _ => false
  end.

(** Items of a [dict]. *)
Fixpoint dict_get (key : string) (d : list (string * pyval)) : option pyval :=
  match d with
  | [] => None
  | (k, v) :: d' => if String.eqb k key then Some v else dict_get key d'
  end.

(** [d[key] = v]: the item keeps its place when the key is already there,
    and goes last otherwise. *)
Fixpoint dict_set (key : string) (v : pyval) (d : list (string * pyval))
  : list (string * pyval) :=
  match d with
  | [] => [(key, v)]
  | (k, x) :: d' =>
      if String.eqb k key then (k, v) :: d' else (k, x) :: dict_set key v d'
  end.

(** ** Exceptions *)

(** An exception object that is an instance of [Exception], the class the
    handler's [except] clause names: [exc_class] is the name of its class
    and [exc_str] is what [str(e)] returns.  Every error of boto3 and
    botocore, [KeyError] and [TypeError] are of this kind.  The exits of the
    interpreter ([KeyboardInterrupt], [SystemExit]), which derive from
    [BaseException] alone, are not faults of a call and are not modelled. *)
Record pyexc : Type := PyExc { exc_class : string; exc_str : string }.

(** The double quote and the single quote, for messages and documents. *)
Definition dquote : string := String "034"%char EmptyString.
Definition squote : string := String "039"%char EmptyString.

(** [KeyError(key)]: [str] of a [KeyError] is the [repr] of the key, which
    for a key without quotes, backslashes and unprintable characters (the
    two keys the handler uses) is the key between single quotes. *)
Definition KeyError (key : string) : pyexc :=
  PyExc "KeyError" (squote +:+ key +:+ squote).

Definition TypeError (msg : string) : pyexc := PyExc "TypeError" msg.

Definition AttributeError (msg : string) : pyexc := PyExc "AttributeError" msg.

(** [botocore.exceptions.ClientError]: the message follows botocore's
    template. *)
Definition ClientError (code operation message : string) : pyexc :=
  PyExc "ClientError"
    ("An error occurred (" +:+ code +:+ ") when calling the " +:+ operation
       +:+ " operation: " +:+ message).

(** [botocore.exceptions.NoRegionError] *)
Definition NoRegionError : pyexc :=
  PyExc "NoRegionError" "You must specify a region.".

(** ** Results and the monad of the handler *)

Inductive result (A : Type) : Type :=
| Return (a : A)
| Raise (e : pyexc).

Arguments Return {A} a.
Arguments Raise {A} e.

(** [v[key]] for a [str] key (Python 3.9, the runtime the stack selects). *)
Definition py_getitem (v : pyval) (key : string) : result pyval :=
  match v with
  | PDict d =>
      match dict_get key d with
      | Some x => Return x
      | None => Raise (KeyError key)
      end
  | PStr _ => Raise (TypeError "string indices must be integers")
  | PList _ => Raise (TypeError "list indices must be integers or slices, not str")
  | _ =>
      Raise (TypeError (squote +:+ py_type_name v +:+ squote
                          +:+ " object is not subscriptable"))
  end.

(** A call to the parameter store, as the store sees it. *)
Inductive api_call : Type :=
| GetParameter (Name : string).

Abbreviation loc := positive.

(** What an invocation runs in.
    - [session_fault]: the exception [boto3.client] raises here, if it
      raises one (no region configured, for instance);
    - [ssm_behaviour Name]: what the store answers to [GetParameter] for
      [Name], a response or an exception, whatever the cause;
    - [heap]: the objects the caller holds, the event and the context among
      them;
    - [stdout]: the objects printed, oldest first;
    - [api_calls]: the calls made to the store, oldest first. *)
Record world : Type := World {
  session_fault : option pyexc;
  ssm_behaviour : string -> result pyval;
  heap : gmap loc pyval;
  stdout : list pyval;
  api_calls : list api_call
}.

Definition M (A : Type) : Type := world -> result A * world.

#[global] Instance M_ret : MRet M := fun A a w => (Return a, w).

#[global] Instance M_bind : MBind M := fun A B f m w =>
  match m w with
  | (Return a, w') => f a w'
  | (Raise e, w') => (Raise e, w')
  end.

Definition raise {A : Type} (e : pyexc) : M A := fun w => (Raise e, w).

(** [try: body  except Exception as e: handle e] *)
Definition try_except {A : Type} (body : M A) (handle : pyexc -> M A) : M A :=
  fun w =>
    match body w with
    | (Return a, w') => (Return a, w')
    | (Raise e, w') => handle e w'
    end.

(** A result that needs no state. *)
Definition lift {A : Type} (r : result A) : M A := fun w => (r, w).

(** ** The operations the handler calls *)

Record client : Type := Client { service_name : string }.

(** [boto3.client(name)] *)
Definition boto3_client (name : string) : M client := fun w =>
  match session_fault w with
  | Some e => (Raise e, w)
  | None => (Return (Client name), w)
  end.

Definition record_call (c : api_call) : M unit := fun w =>
  (Return tt,
   World (session_fault w) (ssm_behaviour w) (heap w) (stdout w)
         (api_calls w ++ [c])).

(** [client.get_parameter(Name=name)]: only the client of the [ssm] service
    has the method (in the message for another client, the name of the
    service stands for botocore's name of the client's class). *)
Definition get_parameter (c : client) (name : string) : M pyval :=
  if String.eqb (service_name c) "ssm" then
    record_call (GetParameter name);;
    w ← (fun w => (Return w, w));
    lift (ssm_behaviour w name)
  else
    raise (AttributeError (squote +:+ service_name c +:+ squote
                             +:+ " object has no attribute "
                             +:+ squote +:+ "get_parameter" +:+ squote)).

(** [print(v)]: the object goes to the log. *)
Definition print (v : pyval) : M unit := fun w =>
  (Return tt,
   World (session_fault w) (ssm_behaviour w) (heap w) (stdout w ++ [v])
         (api_calls w)).

(** ** [json.dumps] and [json.loads] *)

Module Json.

(** The code points of a [str], from its UTF-8 bytes. *)
Fixpoint code_points (bs : list N) : list N :=
  let cont (b : N) : N := N.land b 63 in
  match bs with
  | [] => []
  | b0 :: r0 =>
      if (b0 <? 128)%N then b0 :: code_points r0
      else
        match r0 with
        | [] => []
        | b1 :: r1 =>
            if (b0 <? 224)%N then
              (N.shiftl (N.land b0 31) 6 + cont b1)%N :: code_points r1
            else
              match r1 with
              | [] => []
              | b2 :: r2 =>
                  if (b0 <? 240)%N then
                    (N.shiftl (N.land b0 15) 12 + N.shiftl (cont b1) 6
                     + cont b2)%N :: code_points r2
                  else
                    match r2 with
                    | [] => []
                    | b3 :: r3 =>
                        (N.shiftl (N.land b0 7) 18 + N.shiftl (cont b1) 12
                         + N.shiftl (cont b2) 6 + cont b3)%N :: code_points r3
                    end
              end
        end
  end.

Definition bytes_of (s : string) : list N := map N_of_ascii (list_ascii_of_string s).

Definition hex_digit (n : N) : ascii :=
  if (n <? 10)%N then ascii_of_N (48 + n) else ascii_of_N (87 + n).

(** [format(n, '04x')] for [n < 0x10000] *)
Definition hex4 (n : N) : string :=
  String (hex_digit (N.shiftr n 12 mod 16))
    (String (hex_digit (N.shiftr n 8 mod 16))
       (String (hex_digit (N.shiftr n 4 mod 16))
          (String (hex_digit (n mod 16)) EmptyString))).

Definition backslash : string := String "092"%char EmptyString.

(** One code point under [ensure_ascii=True]: the short escapes, the
    printable ASCII characters as they are, [\uXXXX] for the rest, as a
    surrogate pair above the basic plane. *)
Definition escape_code_point (c : N) : string :=
  if (c =? 34)%N then backslash +:+ dquote
  else if (c =? 92)%N then backslash +:+ backslash
  else if (c =? 10)%N then backslash +:+ "n"
  else if (c =? 13)%N then backslash +:+ "r"
  else if (c =? 9)%N then backslash +:+ "t"
  else if (c =? 12)%N then backslash +:+ "f"
  else if (c =? 8)%N then backslash +:+ "b"
  else if ((32 <=? c) && (c <=? 126))%N then String (ascii_of_N c) EmptyString
  else if (c <? 65536)%N then backslash +:+ "u" +:+ hex4 c
  else
    let v := (c - 65536)%N in
    backslash +:+ "u" +:+ hex4 (55296 + N.land (N.shiftr v 10) 1023)
      +:+ backslash +:+ "u" +:+ hex4 (56320 + N.land v 1023).

(** [json.encoder.py_encode_basestring_ascii] *)
Definition encode_basestring_ascii (s : string) : string :=
  dquote
    +:+ fold_right (fun c acc => escape_code_point c +:+ acc) EmptyString
          (code_points (bytes_of s))
    +:+ dquote.

(** [json.dumps(v)] with its default arguments: items separated by a comma
    and a space, key and value by a colon and a space. *)
Fixpoint dumps (v : pyval) : string :=
  match v with
  | PNone => "null"
  | PBool true => "true"
  | PBool false => "false"
  | PInt z => pretty z
  | PStr s => encode_basestring_ascii s
  | PList l =>
      "[" +:+
      (fix items (l : list pyval) : string :=
         match l with
         | [] => EmptyString
         | [x] => dumps x
         | x :: r => dumps x +:+ ", " +:+ items r
         end) l
      +:+ "]"
  | PDict d =>
      "{" +:+
      (fix items (d : list (string * pyval)) : string :=
         match d with
         | [] => EmptyString
         | [(k, x)] => encode_basestring_ascii k +:+ ": " +:+ dumps x
         | (k, x) :: r =>
             encode_basestring_ascii k +:+ ": " +:+ dumps x +:+ ", " +:+ items r
         end) d
      +:+ "}"
  end.

(** [json.loads] on documents made of objects, arrays, strings, integers,
    [true], [false] and [null].  [Some v] is the value Python builds; [None]
    stands for a document Python refuses and for one outside this fragment
    (a number with a fraction or an exponent, [NaN], a surrogate on its
    own). *)

Definition is_whitespace (c : ascii) : bool :=
  let n := N_of_ascii c in
  ((n =? 32) || (n =? 9) || (n =? 10) || (n =? 13))%N.

Fixpoint skip_whitespace (s : string) : string :=
  match s with
  | String c s' => if is_whitespace c then skip_whitespace s' else s
  | EmptyString => s
  end.

Fixpoint strip_prefix (p s : string) : option string :=
  match p, s with
  | EmptyString, _ => Some s
  | String a p', String b s' => if Ascii.eqb a b then strip_prefix p' s' else None
  | String _ _, EmptyString => None
  end.

Definition digit_of (c : ascii) : option Z :=
  let n := N_of_ascii c in
  if ((48 <=? n) && (n <=? 57))%N then Some (Z.of_N (n - 48)) else None.

Fixpoint scan_digits (s : string) (acc : Z) : Z * string :=
  match s with
  | String c s' =>
      match digit_of c with
      | Some d => scan_digits s' (10 * acc + d)
      | None => (acc, s)
      end
  | EmptyString => (acc, s)
  end.

(** The integer part of a number: [0], or a digit from 1 to 9 and then any
    digits. *)
Definition scan_int (s : string) : option (Z * string) :=
  match s with
  | String c s' =>
      match digit_of c with
      | Some 0 => Some (0, s')
      | Some d => Some (scan_digits s' d)
      | None => None
      end
  | EmptyString => None
  end.

Definition starts_fraction (s : string) : bool :=
  match s with
  | String c _ =>
      let n := N_of_ascii c in ((n =? 46) || (n =? 101) || (n =? 69))%N
  | EmptyString => false
  end.

Definition scan_number (s : string) : option (pyval * string) :=
  let '(negative, digits) :=
    match s with
    | String "-"%char s' => (true, s')
    | _ => (false, s)
    end in
  match scan_int digits with
  | Some (n, rest) =>
      if starts_fraction rest then None
      else Some (PInt (if negative then - n else n), rest)
  | None => None
  end.

Definition hex_value (c : ascii) : option N :=
  let n := N_of_ascii c in
  if ((48 <=? n) && (n <=? 57))%N then Some (n - 48)%N
  else if ((97 <=? n) && (n <=? 102))%N then Some (n - 87)%N
  else if ((65 <=? n) && (n <=? 70))%N then Some (n - 55)%N
  else None.

Definition hex4_value (a b c d : ascii) : option N :=
  match hex_value a, hex_value b, hex_value c, hex_value d with
  | Some x3, Some x2, Some x1, Some x0 =>
      Some (4096 * x3 + 256 * x2 + 16 * x1 + x0)%N
  | _, _, _, _ => None
  end.

(** The UTF-8 bytes of a code point that is not a surrogate. *)
Definition utf8_of (c : N) : string :=
  let byte (n : N) : ascii := ascii_of_N n in
  let cont (n : N) : ascii := ascii_of_N (128 + N.land n 63) in
  if (c <? 128)%N then String (byte c) EmptyString
  else if (c <? 2048)%N then
    String (byte (192 + N.shiftr c 6)%N) (String (cont c) EmptyString)
  else if (c <? 65536)%N then
    String (byte (224 + N.shiftr c 12)%N)
      (String (cont (N.shiftr c 6)) (String (cont c) EmptyString))
  else
    String (byte (240 + N.shiftr c 18)%N)
      (String (cont (N.shiftr c 12))
         (String (cont (N.shiftr c 6)) (String (cont c) EmptyString))).

Definition simple_escape (c : ascii) : option ascii :=
  let n := N_of_ascii c in
  if ((n =? 34) || (n =? 92) || (n =? 47))%N then Some c
  else if (n =? 98)%N then Some (ascii_of_N 8)
  else if (n =? 102)%N then Some (ascii_of_N 12)
  else if (n =? 110)%N then Some (ascii_of_N 10)
  else if (n =? 114)%N then Some (ascii_of_N 13)
  else if (n =? 116)%N then Some (ascii_of_N 9)
  else None.

(** The characters of a string and what follows its closing quote, read
    from just after the opening quote (strict mode: no control character
    inside a string). *)
Fixpoint scan_string (s : string) : option (string * string) :=
  let more (prefix : string) (r : option (string * string)) :=
    match r with
    | Some (chars, rest) => Some (prefix +:+ chars, rest)
    | None => None
    end in
  match s with
  | EmptyString => None
  | String c s1 =>
      let n := N_of_ascii c in
      if (n =? 34)%N then Some (EmptyString, s1)
      else if (n <? 32)%N then None
      else if negb (n =? 92)%N then more (String c EmptyString) (scan_string s1)
      else
        match s1 with
        | EmptyString => None
        | String "u"%char (String h3 (String h2 (String h1 (String h0 s2)))) =>
            match hex4_value h3 h2 h1 h0 with
            | None => None
            | Some hi =>
                if ((hi <? 55296) || (57344 <=? hi))%N then
                  more (utf8_of hi) (scan_string s2)
                else if (56320 <=? hi)%N then None
                else
                  match s2 with
                  | String "092"%char (String "u"%char
                      (String l3 (String l2 (String l1 (String l0 s3))))) =>
                      match hex4_value l3 l2 l1 l0 with
                      | Some lo =>
                          if ((56320 <=? lo) && (lo <? 57344))%N then
                            more (utf8_of (65536 + 1024 * (hi - 55296)
                                           + (lo - 56320))%N)
                                 (scan_string s3)
                          else None
                      | None => None
                      end
                  | _ => None
                  end
            end
        | String e s2 =>
            match simple_escape e with
            | Some ch => more (String ch EmptyString) (scan_string s2)
            | None => None
            end
        end
  end.

Definition starts_with (c : ascii) (s : string) : option string :=
  match s with
  | String c' s' => if Ascii.eqb c c' then Some s' else None
  | EmptyString => None
  end.

(** The scanner: a value, the items of an object after its brace or a
    comma, the items of an array after its bracket or a comma.  [fuel]
    bounds the nesting and the number of items; [loads] gives enough. *)
Fixpoint parse_value (fuel : nat) (s : string) : option (pyval * string) :=
  match fuel with
  | O => None
  | S fuel' =>
      match s with
      | EmptyString => None
      | String c s' =>
          let n := N_of_ascii c in
          if (n =? 34)%N then
            match scan_string s' with
            | Some (chars, rest) => Some (PStr chars, rest)
            | None => None
            end
          else if (n =? 123)%N then
            match starts_with "}" (skip_whitespace s') with
            | Some rest => Some (PDict [], rest)
            | None => parse_members fuel' (skip_whitespace s') []
            end
          else if (n =? 91)%N then
            match starts_with "]" (skip_whitespace s') with
            | Some rest => Some (PList [], rest)
            | None => parse_elements fuel' (skip_whitespace s') []
            end
          else
            match strip_prefix "null" s, strip_prefix "true" s,
                  strip_prefix "false" s with
            | Some rest, _, _ => Some (PNone, rest)
            | _, Some rest, _ => Some (PBool true, rest)
            | _, _, Some rest => Some (PBool false, rest)
            | None, None, None => scan_number s
            end
      end
  end
with parse_members (fuel : nat) (s : string) (acc : list (string * pyval))
  : option (pyval * string) :=
  match fuel with
  | O => None
  | S fuel' =>
      match starts_with "034" s with
      | None => None
      | Some s1 =>
          match scan_string s1 with
          | None => None
          | Some (key, s2) =>
              match starts_with ":" (skip_whitespace s2) with
              | None => None
              | Some s3 =>
                  match parse_value fuel' (skip_whitespace s3) with
                  | None => None
                  | Some (v, s4) =>
                      let acc' := dict_set key v acc in
                      let s5 := skip_whitespace s4 in
                      match starts_with "}" s5, starts_with "," s5 with
                      | Some rest, _ => Some (PDict acc', rest)
                      | None, Some rest =>
                          parse_members fuel' (skip_whitespace rest) acc'
                      | None, None => None
                      end
                  end
              end
          end
      end
  end
with parse_elements (fuel : nat) (s : string) (acc : list pyval)
  : option (pyval * string) :=
  match fuel with
  | O => None
  | S fuel' =>
      match parse_value fuel' s with
      | None => None
      | Some (v, s1) =>
          let s2 := skip_whitespace s1 in
          match starts_with "]" s2, starts_with "," s2 with
          | Some rest, _ => Some (PList (acc ++ [v]), rest)
          | None, Some rest =>
              parse_elements fuel' (skip_whitespace rest) (acc ++ [v])
          | None, None => None
          end
      end
  end.

(** [json.loads(s)] *)
Definition loads (s : string) : option pyval :=
  match parse_value (2 + 2 * String.length s) (skip_whitespace s) with
  | Some (v, rest) =>
      match skip_whitespace rest with
      | EmptyString => Some v
      | String _ _ => None
      end
  | None => None
  end.

End Json.

(** ** [lambda_function.handler] *)

(** [handler(event, context)]: the two arguments are references to the
    caller's objects. *)
Definition handler (event context : loc) : M pyval :=
  ssm_client ← boto3_client "ssm";
  let param_name := "/platform/account/env" in
  try_except
    (response ← get_parameter ssm_client param_name;
     parameter ← lift (py_getitem response "Parameter");
     env_value ← lift (py_getitem parameter "Value");
     print env_value;;
     let helm_values :=
       if py_eq_str env_value "development"
       then PDict [("controller", PDict [("replicaCount", PInt 1)])]
       else PDict [("controller", PDict [("replicaCount", PInt 2)])] in
     mret (PDict [("Status", PStr "SUCCESS");
                  ("Data", PDict [("HelmValues", PStr (Json.dumps helm_values))])]))
    (fun e =>
       print (PStr ("Error: " +:+ exc_str e));;
       mret (PDict [("Status", PStr "FAILED"); ("Reason", PStr (exc_str e))])).

(** What the caller gets. *)
Definition outcome (event context : loc) (w : world) : result pyval :=
  fst (handler event context w).

(** What the invocation leaves behind. *)
Definition after (event context : loc) (w : world) : world :=
  snd (handler event context w).

(** ** Reading a response of the handler *)

(** [response[Status]] *)
Definition status_of (response : pyval) : option string :=
  match py_getitem response "Status" with
  | Return (PStr s) => Some s
  | _ => None
  end.

(** [response[Reason]] *)
Definition reason_of (response : pyval) : option string :=
  match py_getitem response "Reason" with
  | Return (PStr s) => Some s
  | _ => None
  end.

(** [response[Data][HelmValues]] *)
Definition helm_values_of (response : pyval) : option string :=
  match py_getitem response "Data" with
  | Return data =>
      match py_getitem data "HelmValues" with
      | Return (PStr s) => Some s
      | _ => None
      end
  | Raise _ => None
  end.

(** [json.loads(response[Data][HelmValues])[controller][replicaCount]] *)
Definition replica_count_of (response : pyval) : option Z :=
  match helm_values_of response with
  | Some s =>
      match Json.loads s with
      | Some doc =>
          match py_getitem doc "controller" with
          | Return controller =>
              match py_getitem controller "replicaCount" with
              | Return (PInt n) => Some n
              | _ => None
              end
          | Raise _ => None
          end
      | None => None
      end
  | None => None
  end.

Definition has_key (key : string) (v : pyval) : bool :=
  match v with
  | PDict d => match dict_get key d with Some _ => true | None => false end
  | _ => false
  end.

(** The two shapes of a response. *)
Definition success_record (response : pyval) : bool :=
  match status_of response with
  | Some s => String.eqb s "SUCCESS" && has_key "Data" response
              && negb (has_key "Reason" response)
  | None => false
  end.

Definition failure_record (response : pyval) : bool :=
  match status_of response, reason_of response with
  | Some s, Some _ => String.eqb s "FAILED" && negb (has_key "Data" response)
  | _, _ => false
  end.

(** The sizing document with [n] replicas. *)
Definition sizing_document (n : Z) : pyval :=
  PDict [("controller", PDict [("replicaCount", PInt n)])].

(** ** A parameter store *)

(** [GetParameter] on a store that holds [params] and is reachable and
    readable (the answer of SSM, and of the moto double the tests run
    against; of the response, the items the handler does not read are
    abridged). *)
Definition store_get_parameter (params : gmap string string) (name : string)
  : result pyval :=
  match params !! name with
  | Some v =>
      Return (PDict [("Parameter",
                      PDict [("Name", PStr name); ("Type", PStr "String");
                             ("Value", PStr v); ("Version", PInt 1)])])
  | None =>
      Raise (ClientError "ParameterNotFound" "GetParameter"
               ("Parameter " +:+ name +:+ " not found."))
  end.

(** An environment with a region, a store holding [params], the caller's
    objects [h], nothing printed and no call made yet. *)
Definition store_world (params : gmap string string) (h : gmap loc pyval)
  : world :=
  World None (store_get_parameter params) h [] [].

(** ** The stack *)

Module MyAssessmentProjectStack.

(** [ssm.StringParameter] *)
Record StringParameter : Type := {
  construct_id : string;
  parameter_name : string;
  string_value : string;
  description : string
}.

(** The parameter [MyAssessmentProjectStack.__init__] declares. *)
Definition env_value : string := "development".

Definition env_param : StringParameter := {|
  construct_id := "PlatformAccountEnv";
  parameter_name := "/platform/account/env";
  string_value := env_value;
  description := "Environment parameter for platform account"
|}.

(** The parameters of the stack, and the store a deployment of them into
    an empty store leaves. *)
Definition parameters : list StringParameter := [env_param].

Definition provision (ps : list StringParameter) (store : gmap string string)
  : gmap string string :=
  fold_left (fun m p => <[parameter_name p := string_value p]> m) ps store.

Definition provisioned_store : gmap string string := provision parameters ∅.



(** [iam.Effect] and [iam.PolicyStatement] *)
Inductive Effect : Type := ALLOW | DENY.

Record PolicyStatement : Type := {
  actions : list string;
  resources : list string;
  effect : Effect
}.

(** [iam.Role]: its path, the service that may assume it, and the
    statements [add_to_policy] gave it, oldest first. *)
Record Role : Type := {
  role_id : string;
  assumed_by : string;
  statements : list PolicyStatement
}.

Definition add_to_policy (statement : PolicyStatement) (role : Role) : Role :=
  {| role_id := role_id role;
     assumed_by := assumed_by role;
     statements := statements role ++ [statement] |}.

(** Where the stack is deployed: what the tokens of an ARN resolve to. *)
Record Deployment : Type := {
  partition : string;
  region : string;
  account : string
}.

(** [parameter.parameter_arn]: the name follows [parameter] directly when
    it starts with a slash, and after a slash otherwise. *)
Definition parameter_arn_of_name (d : Deployment) (name : string) : string :=
  "arn:" +:+ partition d +:+ ":ssm:" +:+ region d +:+ ":" +:+ account d
    +:+ ":parameter"
    +:+ (match name with
         | String "/"%char _ => name
         | _ => "/" +:+ name
         end).

Definition parameter_arn (d : Deployment) (p : StringParameter) : string :=
  parameter_arn_of_name d (parameter_name p).

(** The role of the function, after [add_to_policy]. *)
Definition lambda_role (d : Deployment) : Role :=
  add_to_policy
    {| actions := ["ssm:GetParameter"];
       resources := [parameter_arn d env_param];
       effect := ALLOW |}
    {| role_id := "CustomResourceFunctionRole";
       assumed_by := "lambda.amazonaws.com";
       statements := [] |}.

End MyAssessmentProjectStack.

(** ** The tests of the handler *)

Module Tests.

(** The two empty dicts each test passes as event and context. *)
Definition event : loc := 1%positive.
Definition context : loc := 2%positive.
Definition arguments : gmap loc pyval := {[ event := PDict []; context := PDict [] ]}.

(** The fixture's store after [put_parameter(Name, Value, Type=String)]. *)
Definition put_parameter (name value : string) (params : gmap string string)
  : gmap string string := <[name := value]> params.

Definition test_handler_development : result pyval :=
  outcome event context
    (store_world (put_parameter "/platform/account/env" "development" ∅) arguments).

Definition test_handler_production : result pyval :=
  outcome event context
    (store_world (put_parameter "/platform/account/env" "production" ∅) arguments).

Definition test_handler_exception : result pyval :=
  outcome event context (store_world ∅ arguments).

End Tests.

(** ** Notions the statements use *)

(** What the first three statements of the [try] block give once the client
    exists: the value under [Parameter], [Value] of the response to
    [GetParameter] for the handler's key, or the exception one of the three
    raises. *)
Definition read_env_value (w : world) : result pyval :=
  match ssm_behaviour w "/platform/account/env" with
  | Return response =>
      match py_getitem response "Parameter" with
      | Return parameter => py_getitem parameter "Value"
      | Raise e => Raise e
      end
  | Raise e => Raise e
  end.

(** The two records the handler builds. *)
Definition success_response (replicas : Z) : pyval :=
  PDict [("Status", PStr "SUCCESS");
         ("Data", PDict [("HelmValues", PStr (Json.dumps (sizing_document replicas)))])].

Definition failure_response (reason : string) : pyval :=
  PDict [("Status", PStr "FAILED"); ("Reason", PStr reason)].

(** The calls an invocation adds to those made before it. *)
Definition calls_made (event context : loc) (w : world) : list api_call :=
  drop (length (api_calls w)) (api_calls (after event context w)).

(** What an invocation prints. *)
Definition printed (event context : loc) (w : world) : list pyval :=
  drop (length (stdout w)) (stdout (after event context w)).

(** The same environment with other objects on the heap, another log and
    another history of calls. *)
Definition with_state (h : gmap loc pyval) (out : list pyval)
  (calls : list api_call) (w : world) : world :=
  World (session_fault w) (ssm_behaviour w) h out calls.

(** The documents of the two scenarios, character by character. *)
Definition development_document : string :=
  "{" +:+ dquote +:+ "controller" +:+ dquote +:+ ": {" +:+ dquote
      +:+ "replicaCount" +:+ dquote +:+ ": 1}}".

Definition production_document : string :=
  "{" +:+ dquote +:+ "controller" +:+ dquote +:+ ": {" +:+ dquote
      +:+ "replicaCount" +:+ dquote +:+ ": 2}}".

(** Worlds for the examples. *)
Definition no_region_world : world :=
  World (Some NoRegionError) (store_get_parameter ∅) Tests.arguments [] [].

Definition store_with (value : string) : gmap string string :=
  {[ "/platform/account/env" := value ]}.

(** A store that is unreachable, and one that denies the read. *)
Definition unreachable_world : world :=
  World None
    (fun _ => Raise (PyExc "EndpointConnectionError"
       ("Could not connect to the endpoint URL: " +:+ dquote
          +:+ "https://ssm.us-east-1.amazonaws.com/" +:+ dquote)))
    Tests.arguments [] [].

Definition denied_world : world :=
  World None
    (fun _ => Raise (ClientError "AccessDeniedException" "GetParameter"
       "User is not authorized to perform: ssm:GetParameter"))
    Tests.arguments [] [].

(** A later invocation against a store that holds more than one parameter:
    other objects on the heap, a log and a history of calls. *)
Definition busy_world : world :=
  World None
    (store_get_parameter
       (<[ "/platform/account/owner" := "platform-team" ]> (store_with "production")))
    {[ 7%positive := PStr "request" ]}
    [PStr "production"]
    [GetParameter "/platform/account/env"].

(** Invocations one after the other, each with its event and context: the
    outcomes in order, and the world the last one leaves. *)
Fixpoint invocations (arguments : list (loc * loc)) (w : world)
  : list (result pyval) * world :=
  match arguments with
  | [] => ([], w)
  | (event, context) :: rest =>
      let (r, w1) := handler event context w in
      let (rs, w2) := invocations rest w1 in
      (r :: rs, w2)
  end.

(** The action and the resource IAM checks for a call to the store. *)
Definition iam_action (c : api_call) : string :=
  match c with
  | GetParameter _ => "ssm:GetParameter"
  end.

Definition iam_resource (d : MyAssessmentProjectStack.Deployment) (c : api_call)
  : string :=
  match c with
  | GetParameter name => MyAssessmentProjectStack.parameter_arn_of_name d name
  end.

(** A statement names the action and the resource, and allows (the
    statements of the stack name both in full, without wildcards). *)
Definition statement_allows (s : MyAssessmentProjectStack.PolicyStatement)
  (action resource : string) : bool :=
  match MyAssessmentProjectStack.effect s with
  | MyAssessmentProjectStack.ALLOW =>
      bool_decide (action ∈ MyAssessmentProjectStack.actions s)
      && bool_decide (resource ∈ MyAssessmentProjectStack.resources s)
  | MyAssessmentProjectStack.DENY => false
  end.


(** * Properties *)

(** ** Running the handler *)

Ltac unfold_handler :=
  unfold outcome, after, handler, boto3_client, try_except, get_parameter,
    record_call, lift, print, raise, mbind, M_bind, mret, M_ret;
  change (String.eqb (service_name (Client "ssm")) "ssm") with true;
  cbv beta iota zeta.

(** The handler, statement by statement: the exception of [boto3.client]
    leaves it; otherwise one call is made, the value or the message is
    printed, and a record is returned. *)
Lemma handler_run (event context : loc) (w : world) :
  handler event context w =
  match session_fault w with
  | Some e => (Raise e, w)
  | None =>
      match read_env_value w with
      | Return v =>
          (Return (success_response (if py_eq_str v "development" then 1 else 2)),
           World (session_fault w) (ssm_behaviour w) (heap w) (stdout w ++ [v])
             (api_calls w ++ [GetParameter "/platform/account/env"]))
      | Raise e =>
          (Return (failure_response (exc_str e)),
           World (session_fault w) (ssm_behaviour w) (heap w)
             (stdout w ++ [PStr ("Error: " +:+ exc_str e)])
             (api_calls w ++ [GetParameter "/platform/account/env"]))
      end
  end.
Proof.
  unfold read_env_value. unfold_handler.
  destruct (session_fault w) as [e|] eqn:Hs; [reflexivity|]. cbn.
  destruct (ssm_behaviour w "/platform/account/env") as [response|e]; cbn;
    [|rewrite Hs; reflexivity].
  destruct (py_getitem response "Parameter") as [parameter|e]; cbn;
    [|rewrite Hs; reflexivity].
  destruct (py_getitem parameter "Value") as [v|e]; cbn;
    [|rewrite Hs; reflexivity].
  rewrite Hs. destruct (py_eq_str v "development"); reflexivity.
Qed.

Lemma outcome_run (event context : loc) (w : world) :
  outcome event context w =
  match session_fault w with
  | Some e => Raise e
  | None =>
      match read_env_value w with
      | Return v =>
          Return (success_response (if py_eq_str v "development" then 1 else 2))
      | Raise e => Return (failure_response (exc_str e))
      end
  end.
Proof.
  unfold outcome. rewrite handler_run.
  destruct (session_fault w); [reflexivity|].
  destruct (read_env_value w); reflexivity.
Qed.

Lemma py_eq_str_other (v s : string) : v <> s -> py_eq_str (PStr v) s = false.
Proof. intros Hne. simpl. apply String.eqb_neq. exact Hne. Qed.

Lemma replica_count_development : replica_count_of (success_response 1) = Some 1.
Proof. vm_compute. reflexivity. Qed.

Lemma replica_count_other : replica_count_of (success_response 2) = Some 2.
Proof. vm_compute. reflexivity. Qed.

Lemma read_env_value_of_response (w : world) (response parameter v : pyval) :
  ssm_behaviour w "/platform/account/env" = Return response ->
  py_getitem response "Parameter" = Return parameter ->
  py_getitem parameter "Value" = Return v ->
  read_env_value w = Return v.
Proof.
  intros Hread Hparameter Hvalue. unfold read_env_value.
  rewrite Hread, Hparameter. exact Hvalue.
Qed.

Lemma read_env_value_of_fault (w : world) (e : pyexc) :
  ssm_behaviour w "/platform/account/env" = Raise e ->
  read_env_value w = Raise e.
Proof. intros Hread. unfold read_env_value. rewrite Hread. reflexivity. Qed.

Lemma read_env_value_store (params : gmap string string) (h : gmap loc pyval) :
  read_env_value (store_world params h) =
  match params !! "/platform/account/env" with
  | Some v => Return (PStr v)
  | None =>
      Raise (ClientError "ParameterNotFound" "GetParameter"
               "Parameter /platform/account/env not found.")
  end.
Proof.
  unfold read_env_value, store_world, store_get_parameter. simpl.
  destruct (params !! "/platform/account/env"); reflexivity.
Qed.

(** The environment an invocation leaves is the one it found. *)
Lemma after_environment (event context : loc) (w : world) :
  session_fault (after event context w) = session_fault w
  /\ ssm_behaviour (after event context w) = ssm_behaviour w
  /\ heap (after event context w) = heap w.
Proof.
  unfold after. rewrite handler_run.
  destruct (session_fault w) eqn:Hs; [auto|].
  destruct (read_env_value w); simpl; auto.
Qed.

Lemma read_env_value_ext (w w' : world) :
  ssm_behaviour w "/platform/account/env" = ssm_behaviour w' "/platform/account/env" ->
  read_env_value w = read_env_value w'.
Proof. intros Hsame. unfold read_env_value. rewrite Hsame. reflexivity. Qed.

(** The outcome is decided by two things only: what [boto3.client] does and
    what the store answers for the handler's key. *)
Lemma outcome_ext (w w' : world) (event context event' context' : loc) :
  session_fault w = session_fault w' ->
  ssm_behaviour w "/platform/account/env" = ssm_behaviour w' "/platform/account/env" ->
  outcome event context w = outcome event' context' w'.
Proof.
  intros Hclient Hread. rewrite !outcome_run, Hclient.
  rewrite (read_env_value_ext w w' Hread). reflexivity.
Qed.

(** ** The tests pass *)

Example test_handler_development_passes :
  exists response,
    Tests.test_handler_development = Return response
    /\ status_of response = Some "SUCCESS"
    /\ (helm_values_of response ≫= Json.loads) = Some (sizing_document 1).
Proof. eexists. split; [reflexivity|]. split; vm_compute; reflexivity. Qed.

Example test_handler_production_passes :
  exists response,
    Tests.test_handler_production = Return response
    /\ status_of response = Some "SUCCESS"
    /\ (helm_values_of response ≫= Json.loads) = Some (sizing_document 2).
Proof. eexists. split; [reflexivity|]. split; vm_compute; reflexivity. Qed.

Example test_handler_exception_passes :
  exists response,
    Tests.test_handler_exception = Return response
    /\ status_of response = Some "FAILED"
    /\ has_key "Reason" response = true.
Proof. eexists. split; [reflexivity|]. split; reflexivity. Qed.

(** ** The sizing rule *)

(** C1. For every store value [v] other than the string [development]
    (compared exactly, so [Development] is another value), when the client
    is built and the read answers with [v], the handler returns a SUCCESS
    record whose sizing document has two replicas. *)
Theorem other_value_yields_two_replicas
  (w : world) (event context : loc) (response parameter : pyval) (v : string) :
  session_fault w = None ->
  ssm_behaviour w "/platform/account/env" = Return response ->
  py_getitem response "Parameter" = Return parameter ->
  py_getitem parameter "Value" = Return (PStr v) ->
  v <> "development" ->
  exists r,
    outcome event context w = Return r
    /\ status_of r = Some "SUCCESS"
    /\ helm_values_of r = Some production_document
    /\ replica_count_of r = Some 2.
Proof.
  intros Hclient Hread Hparameter Hvalue Hother.
  exists (success_response 2).
  rewrite outcome_run, Hclient.
  rewrite (read_env_value_of_response w _ _ _ Hread Hparameter Hvalue).
  rewrite (py_eq_str_other v "development" Hother).
  split; [reflexivity|]. split; [reflexivity|].
  split; [reflexivity | apply replica_count_other].
Qed.

Lemma other_value_yields_two_replicas_witness :
  exists r,
    outcome Tests.event Tests.context
      (store_world (store_with "Development") Tests.arguments) = Return r
    /\ status_of r = Some "SUCCESS"
    /\ helm_values_of r = Some production_document
    /\ replica_count_of r = Some 2.
Proof.
  apply (other_value_yields_two_replicas
           (store_world (store_with "Development") Tests.arguments)
           Tests.event Tests.context
           (PDict [("Parameter",
                    PDict [("Name", PStr "/platform/account/env");
                           ("Type", PStr "String");
                           ("Value", PStr "Development"); ("Version", PInt 1)])])
           (PDict [("Name", PStr "/platform/account/env");
                   ("Type", PStr "String");
                   ("Value", PStr "Development"); ("Version", PInt 1)])
           "Development").
  - reflexivity.
  - reflexivity.
  - reflexivity.
  - reflexivity.
  - discriminate.
Defined.

(** C2. When the client is built and the read answers with the string
    [development], the handler returns a SUCCESS record whose sizing
    document has one replica. *)
Theorem development_yields_one_replica
  (w : world) (event context : loc) (response parameter : pyval) :
  session_fault w = None ->
  ssm_behaviour w "/platform/account/env" = Return response ->
  py_getitem response "Parameter" = Return parameter ->
  py_getitem parameter "Value" = Return (PStr "development") ->
  exists r,
    outcome event context w = Return r
    /\ status_of r = Some "SUCCESS"
    /\ helm_values_of r = Some development_document
    /\ replica_count_of r = Some 1.
Proof.
  intros Hclient Hread Hparameter Hvalue.
  exists (success_response 1).
  rewrite outcome_run, Hclient.
  rewrite (read_env_value_of_response w _ _ _ Hread Hparameter Hvalue).
  split; [reflexivity|]. split; [reflexivity|].
  split; [reflexivity | apply replica_count_development].
Qed.

Lemma development_yields_one_replica_witness :
  exists r,
    outcome Tests.event Tests.context
      (store_world (store_with "development") Tests.arguments) = Return r
    /\ status_of r = Some "SUCCESS"
    /\ helm_values_of r = Some development_document
    /\ replica_count_of r = Some 1.
Proof.
  apply (development_yields_one_replica
           (store_world (store_with "development") Tests.arguments)
           Tests.event Tests.context
           (PDict [("Parameter",
                    PDict [("Name", PStr "/platform/account/env");
                           ("Type", PStr "String");
                           ("Value", PStr "development"); ("Version", PInt 1)])])
           (PDict [("Name", PStr "/platform/account/env");
                   ("Type", PStr "String");
                   ("Value", PStr "development"); ("Version", PInt 1)])).
  - reflexivity.
  - reflexivity.
  - reflexivity.
  - reflexivity.
Defined.

(** ** Failures *)

(** C3. Whenever the read of the key fails, whatever exception [e] the call
    raises (absent key, unreachable store, access denied, any other), the
    handler returns a FAILED record whose reason is [str(e)], unchanged, and
    which has no [Data]; and when the store is one that can be reached and
    read, so that the failure is that of an absent key, the reason is not
    empty. *)
Theorem read_failure_yields_failed
  (w : world) (event context : loc) (e : pyexc) :
  session_fault w = None ->
  ssm_behaviour w "/platform/account/env" = Raise e ->
  exists r,
    outcome event context w = Return r
    /\ status_of r = Some "FAILED"
    /\ reason_of r = Some (exc_str e)
    /\ has_key "Data" r = false
    /\ (forall params : gmap string string,
          ssm_behaviour w "/platform/account/env"
            = store_get_parameter params "/platform/account/env" ->
          params !! "/platform/account/env" = None
          /\ exc_str e <> EmptyString).
Proof.
  intros Hclient Hread.
  exists (failure_response (exc_str e)).
  rewrite outcome_run, Hclient, (read_env_value_of_fault w e Hread).
  split; [reflexivity|]. split; [reflexivity|]. split; [reflexivity|].
  split; [reflexivity|].
  intros params Hstore.
  rewrite Hread in Hstore. unfold store_get_parameter in Hstore.
  destruct (params !! "/platform/account/env") as [v|]; [discriminate|].
  split; [reflexivity|]. injection Hstore as ->. discriminate.
Qed.

Lemma read_failure_yields_failed_witness :
  exists r,
    outcome Tests.event Tests.context (store_world ∅ Tests.arguments) = Return r
    /\ status_of r = Some "FAILED"
    /\ reason_of r =
         Some ("An error occurred (ParameterNotFound) when calling the "
               +:+ "GetParameter operation: "
               +:+ "Parameter /platform/account/env not found.")
    /\ has_key "Data" r = false
    /\ exc_str (ClientError "ParameterNotFound" "GetParameter"
                  "Parameter /platform/account/env not found.")
       <> EmptyString.
Proof.
  destruct (read_failure_yields_failed
              (store_world ∅ Tests.arguments) Tests.event Tests.context
              (ClientError "ParameterNotFound" "GetParameter"
                 "Parameter /platform/account/env not found."))
    as (r & Hreturn & Hstatus & Hreason & Hdata & Habsent).
  - reflexivity.
  - reflexivity.
  - exists r. split; [exact Hreturn|]. split; [exact Hstatus|].
    split; [exact Hreason|]. split; [exact Hdata|].
    apply (Habsent ∅). reflexivity.
Defined.

(** The same path for a store that cannot be reached and for one that
    denies the read. *)
Example unreachable_store_failed :
  outcome Tests.event Tests.context unreachable_world
  = Return (failure_response
      ("Could not connect to the endpoint URL: " +:+ dquote
         +:+ "https://ssm.us-east-1.amazonaws.com/" +:+ dquote)).
Proof. reflexivity. Qed.

Example denied_read_failed :
  outcome Tests.event Tests.context denied_world
  = Return (failure_response
      ("An error occurred (AccessDeniedException) when calling the "
       +:+ "GetParameter operation: "
       +:+ "User is not authorized to perform: ssm:GetParameter")).
Proof. reflexivity. Qed.

(** A response that lacks [Parameter] or [Value] takes the same path: the
    [KeyError] is caught. *)
Example malformed_response_failed :
  outcome Tests.event Tests.context
    (World None (fun _ => Return (PDict [("Parameter", PDict [])])) ∅ [] [])
  = Return (failure_response (squote +:+ "Value" +:+ squote)).
Proof. reflexivity. Qed.

(** C4, as stated, fails: [boto3.client] is called before the [try]
    statement, so the exception it raises where no region is configured
    leaves the handler. *)
Lemma client_fault_escapes :
  outcome Tests.event Tests.context no_region_world = Raise NoRegionError.
Proof. reflexivity. Qed.

(** C4, amended. Once the client is built, the handler returns, and returns
    a record of one of the two shapes: every exception raised inside the
    [try] statement, by the call to the store or by reading the response,
    becomes the FAILED record with its message. *)
Theorem guarded_faults_yield_failed (w : world) (event context : loc) :
  session_fault w = None ->
  (exists r,
      outcome event context w = Return r
      /\ xorb (success_record r) (failure_record r) = true)
  /\ (forall e,
        read_env_value w = Raise e ->
        outcome event context w = Return (failure_response (exc_str e))).
Proof.
  intros Hclient. rewrite outcome_run, Hclient. split.
  - destruct (read_env_value w) as [v|e]; eexists; split; reflexivity.
  - intros e ->. reflexivity.
Qed.

Lemma guarded_faults_yield_failed_witness :
  (exists r,
      outcome Tests.event Tests.context denied_world = Return r
      /\ xorb (success_record r) (failure_record r) = true)
  /\ outcome Tests.event Tests.context denied_world
     = Return (failure_response
         ("An error occurred (AccessDeniedException) when calling the "
          +:+ "GetParameter operation: "
          +:+ "User is not authorized to perform: ssm:GetParameter")).
Proof.
  destruct (guarded_faults_yield_failed denied_world Tests.event Tests.context)
    as [Hreturns Hfailed].
  - reflexivity.
  - split; [exact Hreturns|].
    apply (Hfailed (ClientError "AccessDeniedException" "GetParameter"
                      "User is not authorized to perform: ssm:GetParameter")).
    reflexivity.
Defined.

(** C5. Every record the handler returns has exactly one of two shapes:
    status SUCCESS with a [Data] payload and no [Reason], or status FAILED
    with a [Reason] that is a string and no [Data]. *)
Theorem response_has_one_shape
  (w : world) (event context : loc) (r : pyval) :
  outcome event context w = Return r ->
  (status_of r = Some "SUCCESS"
   /\ (exists document, helm_values_of r = Some document)
   /\ has_key "Data" r = true /\ has_key "Reason" r = false
   /\ success_record r = true /\ failure_record r = false)
  \/ (status_of r = Some "FAILED"
      /\ (exists reason, reason_of r = Some reason)
      /\ has_key "Reason" r = true /\ has_key "Data" r = false
      /\ success_record r = false /\ failure_record r = true).
Proof.
  rewrite outcome_run.
  destruct (session_fault w) as [e|]; [discriminate|].
  destruct (read_env_value w) as [v|e]; intros [= <-].
  - left. split; [reflexivity|]. split; [eexists; reflexivity|].
    repeat split.
  - right. split; [reflexivity|]. split; [eexists; reflexivity|].
    repeat split.
Qed.

Lemma response_has_one_shape_witness :
  (status_of (success_response 1) = Some "SUCCESS"
   /\ (exists document, helm_values_of (success_response 1) = Some document)
   /\ has_key "Data" (success_response 1) = true
   /\ has_key "Reason" (success_response 1) = false
   /\ success_record (success_response 1) = true
   /\ failure_record (success_response 1) = false)
  \/ (status_of (success_response 1) = Some "FAILED"
      /\ (exists reason, reason_of (success_response 1) = Some reason)
      /\ has_key "Reason" (success_response 1) = true
      /\ has_key "Data" (success_response 1) = false
      /\ success_record (success_response 1) = false
      /\ failure_record (success_response 1) = true).
Proof.
  apply (response_has_one_shape
           (store_world (store_with "development") Tests.arguments)
           Tests.event Tests.context (success_response 1)).
  reflexivity.
Defined.

(** ** The payload *)

Lemma loads_sizing_document (n : Z) :
  n = 1 \/ n = 2 ->
  Json.loads (Json.dumps (sizing_document n)) = Some (sizing_document n).
Proof. intros [-> | ->]; vm_compute; reflexivity. Qed.

(** C6. On every SUCCESS record the handler returns, [HelmValues] under
    [Data] is a string that [json.loads] reads back as the document with
    [replicaCount] [n] under [controller] and nothing else, [n] being 1 or
    2; and for the values [development] and [production] the string is,
    character by character, the one of the scenario. *)
Theorem success_payload_is_sizing_document
  (w : world) (event context : loc) (r : pyval) :
  outcome event context w = Return r ->
  status_of r = Some "SUCCESS" ->
  exists (document : string) (n : Z),
    r = PDict [("Status", PStr "SUCCESS");
               ("Data", PDict [("HelmValues", PStr document)])]
    /\ Json.loads document = Some (sizing_document n)
    /\ (n = 1 \/ n = 2)
    /\ (read_env_value w = Return (PStr "development") ->
        document = development_document)
    /\ (read_env_value w = Return (PStr "production") ->
        document = production_document).
Proof.
  rewrite outcome_run.
  destruct (session_fault w) as [e|]; [discriminate|].
  destruct (read_env_value w) as [v|e]; intros [= <-]; [|discriminate].
  intros _. destruct (py_eq_str v "development") eqn:Hrule.
  - exists (Json.dumps (sizing_document 1)), 1.
    split; [reflexivity|]. split; [apply loads_sizing_document; auto|].
    split; [auto|]. split; [reflexivity|].
    intros [= ->]. discriminate Hrule.
  - exists (Json.dumps (sizing_document 2)), 2.
    split; [reflexivity|]. split; [apply loads_sizing_document; auto|].
    split; [auto|]. split; [|reflexivity].
    intros [= ->]. discriminate Hrule.
Qed.

Lemma success_payload_is_sizing_document_witness :
  exists (document : string) (n : Z),
    success_response 2
    = PDict [("Status", PStr "SUCCESS");
             ("Data", PDict [("HelmValues", PStr document)])]
    /\ Json.loads document = Some (sizing_document n)
    /\ (n = 1 \/ n = 2)
    /\ document = production_document.
Proof.
  destruct (success_payload_is_sizing_document
              (store_world (store_with "production") Tests.arguments)
              Tests.event Tests.context (success_response 2))
    as (document & n & Hrecord & Hloads & Hn & _ & Hproduction).
  - reflexivity.
  - reflexivity.
  - exists document, n. split; [exact Hrecord|]. split; [exact Hloads|].
    split; [exact Hn|]. apply Hproduction. reflexivity.
Defined.

(** The scenarios, whole records. *)
Example scenario_development :
  outcome Tests.event Tests.context
    (store_world (store_with "development") Tests.arguments)
  = Return (PDict [("Status", PStr "SUCCESS");
                   ("Data", PDict [("HelmValues", PStr development_document)])]).
Proof. reflexivity. Qed.

Example scenario_production :
  outcome Tests.event Tests.context
    (store_world (store_with "production") Tests.arguments)
  = Return (PDict [("Status", PStr "SUCCESS");
                   ("Data", PDict [("HelmValues", PStr production_document)])]).
Proof. reflexivity. Qed.

Example scenario_staging :
  outcome Tests.event Tests.context
    (store_world (store_with "staging") Tests.arguments)
  = Return (PDict [("Status", PStr "SUCCESS");
                   ("Data", PDict [("HelmValues", PStr production_document)])]).
Proof. reflexivity. Qed.

(** ** What the outcome depends on *)

(** C7. The outcome is a function of the store's answer: an invocation
    that follows another, with any event and context, has the outcome of
    the first; and two invocations in environments where [boto3.client] and
    the read of the key behave alike have the same outcome, whatever the
    events, the contexts, the heaps, the logs and the calls made before. *)
Theorem outcome_is_function_of_store_value :
  (forall (w : world) (event context event' context' : loc),
      outcome event' context' (after event context w) = outcome event context w)
  /\ (forall (w w' : world) (event context event' context' : loc),
        session_fault w = session_fault w' ->
        ssm_behaviour w "/platform/account/env"
          = ssm_behaviour w' "/platform/account/env" ->
        outcome event context w = outcome event' context' w').
Proof.
  split.
  - intros w event context event' context'.
    destruct (after_environment event context w) as (Hclient & Hstore & _).
    apply outcome_ext; [exact Hclient | rewrite Hstore; reflexivity].
  - intros w w' event context event' context'. apply outcome_ext.
Qed.

Lemma outcome_is_function_of_store_value_witness :
  outcome 3%positive 4%positive
    (after Tests.event Tests.context
       (store_world (store_with "production") Tests.arguments))
  = outcome Tests.event Tests.context
      (store_world (store_with "production") Tests.arguments)
  /\ outcome Tests.event Tests.context
       (store_world (store_with "production") Tests.arguments)
     = outcome 7%positive 7%positive busy_world.
Proof.
  split.
  - apply (proj1 outcome_is_function_of_store_value).
  - apply (proj2 outcome_is_function_of_store_value); reflexivity.
Defined.

(** C8. The outcome does not depend on the event and the context: with
    the same behaviour of [boto3.client] and of the store, any two pairs of
    arguments, whatever objects they refer to, give the same outcome. *)
Theorem outcome_ignores_event_and_context
  (w : world) (event context event' context' : loc)
  (h : gmap loc pyval) (out : list pyval) (calls : list api_call) :
  outcome event context w = outcome event' context' (with_state h out calls w).
Proof. apply outcome_ext; reflexivity. Qed.

(** ** Effects *)

Lemma after_calls (event context : loc) (w : world) :
  api_calls (after event context w) =
  api_calls w ++
    match session_fault w with
    | Some _ => []
    | None => [GetParameter "/platform/account/env"]
    end.
Proof.
  unfold after. rewrite handler_run.
  destruct (session_fault w) as [e|].
  - simpl. rewrite app_nil_r. reflexivity.
  - destruct (read_env_value w); reflexivity.
Qed.

Lemma calls_made_run (event context : loc) (w : world) :
  calls_made event context w =
  match session_fault w with
  | Some _ => []
  | None => [GetParameter "/platform/account/env"]
  end.
Proof. unfold calls_made. rewrite after_calls. apply drop_app_length. Qed.

(** One line is printed by an invocation that reaches the [try] statement:
    the value read, or the message of the exception. *)
Lemma printed_run (event context : loc) (w : world) :
  printed event context w =
  match session_fault w with
  | Some _ => []
  | None =>
      match read_env_value w with
      | Return v => [v]
      | Raise e => [PStr ("Error: " +:+ exc_str e)]
      end
  end.
Proof.
  unfold printed, after. rewrite handler_run.
  destruct (session_fault w) as [e|].
  - simpl. apply drop_all.
  - destruct (read_env_value w); simpl; apply drop_app_length.
Qed.

(** C9, as stated, fails: an invocation in which [boto3.client] raises
    makes no call to the store at all. *)
Lemma no_read_without_client :
  calls_made Tests.event Tests.context no_region_world = [].
Proof. reflexivity. Qed.

(** C9, amended. Every invocation in which the client is built makes
    exactly one call to the store, a read of [/platform/account/env]; and
    every invocation leaves what the store answers, the behaviour of
    [boto3.client] and the objects on the heap, the event and the context
    among them, as it found them. *)
Theorem one_read_and_nothing_changed (w : world) (event context : loc) :
  (session_fault w = None ->
   calls_made event context w = [GetParameter "/platform/account/env"])
  /\ ssm_behaviour (after event context w) = ssm_behaviour w
  /\ session_fault (after event context w) = session_fault w
  /\ heap (after event context w) = heap w
  /\ heap (after event context w) !! event = heap w !! event
  /\ heap (after event context w) !! context = heap w !! context.
Proof.
  destruct (after_environment event context w) as (Hclient & Hstore & Hheap).
  split.
  - intros Hbuilt. rewrite calls_made_run, Hbuilt. reflexivity.
  - rewrite Hheap. auto.
Qed.

Lemma one_read_and_nothing_changed_witness :
  calls_made Tests.event Tests.context busy_world
  = [GetParameter "/platform/account/env"]
  /\ heap (after Tests.event Tests.context busy_world) = heap busy_world.
Proof.
  destruct (one_read_and_nothing_changed busy_world Tests.event Tests.context)
    as (Hcalls & _ & _ & Hheap & _).
  split; [apply Hcalls; reflexivity | exact Hheap].
Defined.

(** ** The stack and the handler *)

(** C10. The stack declares its parameter under the name the handler
    reads, [/platform/account/env], with the value [development]; so
    against the store a deployment of the stack leaves, the handler reads
    that parameter and returns SUCCESS with one replica. *)
Theorem stack_parameter_is_the_one_read :
  MyAssessmentProjectStack.parameter_name MyAssessmentProjectStack.env_param
  = "/platform/account/env"
  /\ MyAssessmentProjectStack.string_value MyAssessmentProjectStack.env_param
     = "development"
  /\ MyAssessmentProjectStack.provisioned_store !! "/platform/account/env"
     = Some "development"
  /\ forall (h : gmap loc pyval) (event context : loc),
       calls_made event context
         (store_world MyAssessmentProjectStack.provisioned_store h)
       = [GetParameter
            (MyAssessmentProjectStack.parameter_name
               MyAssessmentProjectStack.env_param)]
       /\ exists r,
            outcome event context
              (store_world MyAssessmentProjectStack.provisioned_store h)
            = Return r
            /\ status_of r = Some "SUCCESS"
            /\ replica_count_of r = Some 1.
Proof.
  assert (Hstored :
    MyAssessmentProjectStack.provisioned_store !! "/platform/account/env"
    = Some "development").
  { unfold MyAssessmentProjectStack.provisioned_store,
      MyAssessmentProjectStack.provision, MyAssessmentProjectStack.parameters.
    simpl. apply lookup_insert_eq. }
  split; [reflexivity|]. split; [reflexivity|]. split; [exact Hstored|].
  intros h event context. split.
  - rewrite calls_made_run. reflexivity.
  - exists (success_response 1).
    rewrite outcome_run, read_env_value_store, Hstored. simpl.
    split; [reflexivity|]. split; [reflexivity | apply replica_count_development].
Qed.

(** * Further properties of the handler *)

(** ** What reaches the log *)

(** X1. An invocation that returns a record has printed exactly one
    object, and the log agrees with the record: on SUCCESS it is the value
    read from the store, as it was read; on FAILED it is the string [Error: ]
    followed by the reason of the record. *)
Theorem log_agrees_with_response
  (w : world) (event context : loc) (r : pyval) :
  outcome event context w = Return r ->
  (status_of r = Some "SUCCESS" ->
   exists v, read_env_value w = Return v /\ printed event context w = [v])
  /\ (forall reason,
        reason_of r = Some reason ->
        printed event context w = [PStr ("Error: " +:+ reason)]).
Proof.
  rewrite outcome_run, printed_run.
  destruct (session_fault w) as [e|]; [discriminate|].
  destruct (read_env_value w) as [v|e]; intros [= <-]; split.
  - intros _. exists v. split; reflexivity.
  - intros reason. discriminate.
  - discriminate.
  - intros reason [= <-]. reflexivity.
Qed.

Lemma log_agrees_with_response_witness :
  (exists v,
      read_env_value (store_world (store_with "production") Tests.arguments)
      = Return v
      /\ printed Tests.event Tests.context
           (store_world (store_with "production") Tests.arguments) = [v])
  /\ printed Tests.event Tests.context (store_world ∅ Tests.arguments)
     = [PStr ("Error: An error occurred (ParameterNotFound) when calling the "
              +:+ "GetParameter operation: "
              +:+ "Parameter /platform/account/env not found.")].
Proof.
  split.
  - apply (log_agrees_with_response
             (store_world (store_with "production") Tests.arguments)
             Tests.event Tests.context (success_response 2));
      reflexivity.
  - apply (log_agrees_with_response (store_world ∅ Tests.arguments)
             Tests.event Tests.context
             (failure_response
                ("An error occurred (ParameterNotFound) when calling the "
                 +:+ "GetParameter operation: "
                 +:+ "Parameter /platform/account/env not found.")));
      reflexivity.
Defined.

(** ** A response that lacks an item *)

(** X2. When the store answers with a dict that has no [Parameter] item,
    or whose [Parameter] is a dict with no [Value] item, the [KeyError] of
    the subscript is caught like a failure of the read: the handler returns
    FAILED, and the reason is the missing key between single quotes. *)
Theorem missing_item_yields_failed
  (w : world) (event context : loc) (d : list (string * pyval)) :
  session_fault w = None ->
  ssm_behaviour w "/platform/account/env" = Return (PDict d) ->
  (dict_get "Parameter" d = None ->
   outcome event context w
   = Return (failure_response (squote +:+ "Parameter" +:+ squote)))
  /\ (forall p,
        dict_get "Parameter" d = Some (PDict p) ->
        dict_get "Value" p = None ->
        outcome event context w
        = Return (failure_response (squote +:+ "Value" +:+ squote))).
Proof.
  intros Hclient Hread. rewrite outcome_run, Hclient.
  unfold read_env_value. rewrite Hread. simpl. split.
  - intros ->. reflexivity.
  - intros p -> Hvalue. simpl. rewrite Hvalue. reflexivity.
Qed.

Lemma missing_item_yields_failed_witness :
  outcome Tests.event Tests.context
    (World None (fun _ => Return (PDict [("ResponseMetadata", PDict [])]))
       Tests.arguments [] [])
  = Return (failure_response (squote +:+ "Parameter" +:+ squote)).
Proof.
  apply (missing_item_yields_failed
           (World None (fun _ => Return (PDict [("ResponseMetadata", PDict [])]))
              Tests.arguments [] [])
           Tests.event Tests.context [("ResponseMetadata", PDict [])]);
    reflexivity.
Defined.

(** ** The rule, read backwards *)

(** X3. The sizing rule holds in both directions and for any value: a
    record the handler returns carries one replica exactly when the value
    read is the str [development], and two replicas exactly when a value was
    read and is anything else, a str or not. *)
Theorem replicas_tell_the_value
  (w : world) (event context : loc) (r : pyval) :
  outcome event context w = Return r ->
  (replica_count_of r = Some 1 <-> read_env_value w = Return (PStr "development"))
  /\ (replica_count_of r = Some 2 <->
      exists v, read_env_value w = Return v /\ v <> PStr "development").
Proof.
  rewrite outcome_run.
  destruct (session_fault w) as [e|]; [discriminate|].
  destruct (read_env_value w) as [v|e]; intros [= <-].
  - destruct (py_eq_str v "development") eqn:Hrule.
    + assert (v = PStr "development") as ->.
      { destruct v; try discriminate Hrule. simpl in Hrule.
        apply String.eqb_eq in Hrule. subst. reflexivity. }
      rewrite replica_count_development. split; split; try reflexivity.
      * discriminate.
      * intros (v & [= <-] & Hother). contradiction.
    + assert (v <> PStr "development") as Hother.
      { intros ->. discriminate Hrule. }
      rewrite replica_count_other. split; split; try discriminate.
      * intros [= ->]. contradiction.
      * intros _. exists v. split; [reflexivity | exact Hother].
      * reflexivity.
  - split; split; try discriminate.
    intros (v & Hread & _). discriminate.
Qed.

Lemma replicas_tell_the_value_witness :
  (replica_count_of (success_response 2) = Some 1 <->
   read_env_value
     (World None
        (fun _ => Return (PDict [("Parameter", PDict [("Value", PInt 1)])]))
        Tests.arguments [] [])
   = Return (PStr "development"))
  /\ (replica_count_of (success_response 2) = Some 2 <->
      exists v,
        read_env_value
          (World None
             (fun _ => Return (PDict [("Parameter", PDict [("Value", PInt 1)])]))
             Tests.arguments [] [])
        = Return v
        /\ v <> PStr "development").
Proof.
  apply (replicas_tell_the_value
           (World None
              (fun _ => Return (PDict [("Parameter", PDict [("Value", PInt 1)])]))
              Tests.arguments [] [])
           Tests.event Tests.context (success_response 2)).
  reflexivity.
Defined.

(** ** The status, read backwards *)

(** X4. The status tells what happened in the [try] statement and nothing
    else: a returned record says SUCCESS exactly when a value was read, and
    FAILED exactly when the call or a subscript raised. *)
Theorem status_tells_the_read
  (w : world) (event context : loc) (r : pyval) :
  outcome event context w = Return r ->
  (status_of r = Some "SUCCESS" <-> exists v, read_env_value w = Return v)
  /\ (status_of r = Some "FAILED" <-> exists e, read_env_value w = Raise e).
Proof.
  rewrite outcome_run.
  destruct (session_fault w) as [e|]; [discriminate|].
  destruct (read_env_value w) as [v|e]; intros [= <-]; split; split.
  - intros _. exists v. reflexivity.
  - reflexivity.
  - discriminate.
  - intros (e & Hread). discriminate.
  - discriminate.
  - intros (v & Hread). discriminate.
  - intros _. exists e. reflexivity.
  - reflexivity.
Qed.

Lemma status_tells_the_read_witness :
  (status_of (failure_response (squote +:+ "Value" +:+ squote)) = Some "SUCCESS"
   <-> exists v,
       read_env_value
         (World None (fun _ => Return (PDict [("Parameter", PDict [])])) ∅ [] [])
       = Return v)
  /\ (status_of (failure_response (squote +:+ "Value" +:+ squote)) = Some "FAILED"
      <-> exists e,
          read_env_value
            (World None (fun _ => Return (PDict [("Parameter", PDict [])])) ∅ [] [])
          = Raise e).
Proof.
  apply (status_tells_the_read
           (World None (fun _ => Return (PDict [("Parameter", PDict [])])) ∅ [] [])
           Tests.event Tests.context
           (failure_response (squote +:+ "Value" +:+ squote))).
  reflexivity.
Defined.

(** ** What leaves the handler *)



(** ** Invocations in a row *)

Lemma invocations_cons (event context : loc) (rest : list (loc * loc)) (w : world) :
  invocations ((event, context) :: rest) w =
  (outcome event context w :: fst (invocations rest (after event context w)),
   snd (invocations rest (after event context w))).
Proof.
  unfold outcome, after. simpl.
  destruct (handler event context w) as [r w1]. simpl.
  destruct (invocations rest w1); reflexivity.
Qed.

(** X6. Any number of invocations in a row, with any events and contexts,
    all have the outcome of the first; when the client can be built each of
    them makes its one read, so that as many reads as invocations are added
    to the calls; and the store and the heap are left as they were. *)
Theorem invocations_repeat_the_first
  (arguments : list (loc * loc)) (w : world) (event context : loc) :
  Forall (fun r => r = outcome event context w) (fst (invocations arguments w))
  /\ length (fst (invocations arguments w)) = length arguments
  /\ (session_fault w = None ->
      api_calls (snd (invocations arguments w))
      = api_calls w
          ++ replicate (length arguments) (GetParameter "/platform/account/env"))
  /\ ssm_behaviour (snd (invocations arguments w)) = ssm_behaviour w
  /\ session_fault (snd (invocations arguments w)) = session_fault w
  /\ heap (snd (invocations arguments w)) = heap w.
Proof.
  revert w. induction arguments as [|[event' context'] rest IH]; intros w.
  - simpl. rewrite app_nil_r. repeat split. constructor.
  - rewrite invocations_cons. simpl.
    destruct (after_environment event' context' w) as (Hclient & Hstore & Hheap).
    destruct (IH (after event' context' w))
      as (Hsame & Hlength & Hcalls & Hstore' & Hclient' & Hheap').
    split; [|split; [|split; [|split; [|split]]]].
    + constructor.
      * apply outcome_ext; reflexivity.
      * eapply Forall_impl; [exact Hsame|]. intros r ->.
        apply outcome_ext; [exact Hclient | rewrite Hstore; reflexivity].
    + rewrite Hlength. reflexivity.
    + intros Hbuilt. rewrite Hcalls by (rewrite Hclient; exact Hbuilt).
      rewrite after_calls, Hbuilt, <- app_assoc. reflexivity.
    + rewrite Hstore'. exact Hstore.
    + rewrite Hclient'. exact Hclient.
    + rewrite Hheap'. exact Hheap.
Qed.

Lemma invocations_repeat_the_first_witness :
  api_calls
    (snd (invocations [(1%positive, 2%positive); (3%positive, 4%positive);
                       (1%positive, 4%positive)]
            busy_world))
  = api_calls busy_world
      ++ replicate 3%nat (GetParameter "/platform/account/env").
Proof.
  destruct (invocations_repeat_the_first
              [(1%positive, 2%positive); (3%positive, 4%positive);
               (1%positive, 4%positive)]
              busy_world Tests.event Tests.context)
    as (_ & _ & Hcalls & _).
  apply Hcalls. reflexivity.
Defined.

(** ** The other parameters of the store *)

(** X7. Of a store, the handler sees the parameter [/platform/account/env]
    and no other: creating, changing or deleting a parameter of another
    name leaves the outcome as it was. *)
Theorem other_parameters_do_not_matter
  (params : gmap string string) (h : gmap loc pyval) (event context : loc)
  (name value : string) :
  name <> "/platform/account/env" ->
  outcome event context (store_world (<[name := value]> params) h)
  = outcome event context (store_world params h)
  /\ outcome event context (store_world (delete name params) h)
     = outcome event context (store_world params h).
Proof.
  intros Hother. split; apply outcome_ext; try reflexivity; simpl;
    unfold store_get_parameter.
  - rewrite lookup_insert_ne by exact Hother. reflexivity.
  - rewrite lookup_delete_ne by exact Hother. reflexivity.
Qed.

Lemma other_parameters_do_not_matter_witness :
  outcome Tests.event Tests.context
    (store_world (<["/platform/account/owner" := "platform-team"]>
                    (store_with "development")) Tests.arguments)
  = outcome Tests.event Tests.context
      (store_world (store_with "development") Tests.arguments)
  /\ outcome Tests.event Tests.context
       (store_world (delete "/platform/account/owner" (store_with "development"))
          Tests.arguments)
     = outcome Tests.event Tests.context
         (store_world (store_with "development") Tests.arguments).
Proof.
  apply (other_parameters_do_not_matter (store_with "development")
           Tests.arguments Tests.event Tests.context
           "/platform/account/owner" "platform-team").
  discriminate.
Defined.

(** * Properties of the stack *)

(** ** The role of the function *)

(** X8. The role the stack gives the function allows every call the
    handler makes to the store, in any invocation, and allows nothing more:
    whatever a statement of the role allows is the action of the handler's
    read on the ARN of the parameter the handler reads. *)
Theorem role_allows_the_read_and_no_more (d : MyAssessmentProjectStack.Deployment) :
  (forall (w : world) (event context : loc) (c : api_call),
      c ∈ calls_made event context w ->
      exists s,
        s ∈ MyAssessmentProjectStack.statements
              (MyAssessmentProjectStack.lambda_role d)
        /\ statement_allows s (iam_action c) (iam_resource d c) = true)
  /\ (forall s action resource,
        s ∈ MyAssessmentProjectStack.statements
              (MyAssessmentProjectStack.lambda_role d) ->
        statement_allows s action resource = true ->
        action = iam_action (GetParameter "/platform/account/env")
        /\ resource = iam_resource d (GetParameter "/platform/account/env")).
Proof.
  split.
  - intros w event context c. rewrite calls_made_run.
    destruct (session_fault w) as [e|].
    + intros Hnone. apply elem_of_nil in Hnone. contradiction.
    + intros Hcall. apply list_elem_of_singleton in Hcall. subst c.
      eexists. split; [apply list_elem_of_here|].
      unfold statement_allows.
      change (MyAssessmentProjectStack.effect _) with MyAssessmentProjectStack.ALLOW.
      apply andb_true_iff.
      split; apply bool_decide_eq_true_2, list_elem_of_here.
  - intros s action resource Hin Hallows.
    simpl in Hin. apply list_elem_of_singleton in Hin. subst s.
    unfold statement_allows in Hallows. simpl in Hallows.
    apply andb_true_iff in Hallows as [Haction Hresource].
    apply bool_decide_eq_true_1, list_elem_of_singleton in Haction.
    apply bool_decide_eq_true_1, list_elem_of_singleton in Hresource.
    split; [exact Haction | exact Hresource].
Qed.

Lemma role_allows_the_read_and_no_more_witness :
  exists s,
    s ∈ MyAssessmentProjectStack.statements
          (MyAssessmentProjectStack.lambda_role
             (MyAssessmentProjectStack.Build_Deployment "aws" "us-east-1"
                "123456789012"))
    /\ statement_allows s "ssm:GetParameter"
         "arn:aws:ssm:us-east-1:123456789012:parameter/platform/account/env"
       = true.
Proof.
  apply (proj1 (role_allows_the_read_and_no_more
                  (MyAssessmentProjectStack.Build_Deployment "aws" "us-east-1"
                     "123456789012"))
           (store_world (store_with "production") Tests.arguments)
           Tests.event Tests.context (GetParameter "/platform/account/env")).
  rewrite calls_made_run. apply list_elem_of_here.
Defined.

(** ** The tags of the subnets *)




